(** * async-ssh2-lite, module [sftp]: the async SFTP adapters

    A shallow embedding of [src/sftp.rs]: [AsyncSftp] (the session adapter,
    fifteen async methods) and [AsyncFile] (the handle adapter,
    [poll_read], [poll_write], [poll_flush], [poll_close]).

    The blocking SFTP client (crate [ssh2]) is a record of blocking calls
    over an abstract remote state [R].  The readiness reactor (crate
    [async-io], [Async::read_with] / [Async::write_with]) is modelled after
    its documented loop: run the operation, return its result unless it
    failed with [ErrorKind::WouldBlock], otherwise wait for readiness and
    run it again.  The reactor's readiness answers are a schedule
    [list Readiness] supplied by the environment. *)

From Stdlib Require Import ZArith String.
From stdpp Require Import base list gmap.

Open Scope Z_scope.

(** ** Rust standard library *)

(** [Result<T, E>] *)
Inductive Result (A E : Type) : Type :=
| Ok (a : A)
| Err (e : E).
Arguments Ok {A E} a.
Arguments Err {A E} e.

Definition map_err {A E F : Type} (f : E -> F) (r : Result A E) : Result A F :=
  match r with
  | Ok a => Ok a
  | Err e => Err (f e)
  end.

Definition and_then {A B E : Type} (r : Result A E) (f : A -> Result B E)
  : Result B E :=
  match r with
  | Ok a => f a
  | Err e => Err e
  end.

(** [std::task::Poll<T>] *)
Inductive Poll (A : Type) : Type :=
| Ready (a : A)
| Pending.
Arguments Ready {A} a.
Arguments Pending {A}.

(** [std::io::ErrorKind], the variants the conversions below produce. *)
Inductive ErrorKind :=
| WouldBlock
| TimedOut
| NotFound
| Other.

(** ** ssh2 errors and their conversion into [io::Error] *)

(** [ssh2::ErrorCode]: a libssh2 session error or an SFTP status code. *)
Inductive ErrorCode :=
| Session (c : Z)
| SFTP (c : Z).

(** [ssh2::Error] *)
Record Ssh2Error := mk_ssh2_error { code : ErrorCode; msg : string }.

Definition LIBSSH2_ERROR_EAGAIN : Z := -37.
Definition LIBSSH2_ERROR_TIMEOUT : Z := -9.
Definition LIBSSH2_FX_NO_SUCH_FILE : Z := 2.
Definition LIBSSH2_FX_NO_SUCH_PATH : Z := 10.

(** [std::io::Error]: either built by [io::Error::new(kind, err)] around an
    [ssh2::Error], or an OS error raised by the transport or the reactor. *)
Inductive IoError :=
| IoCustom (k : ErrorKind) (e : Ssh2Error)
| IoOs (k : ErrorKind) (errno : Z).

Definition kind (e : IoError) : ErrorKind :=
  match e with
  | IoCustom k _ => k
  | IoOs k _ => k
  end.

(** [impl From<ssh2::Error> for io::Error] *)
Definition kind_of_code (c : ErrorCode) : ErrorKind :=
  match c with
  | Session n =>
      if Z.eqb n LIBSSH2_ERROR_EAGAIN then WouldBlock
      else if Z.eqb n LIBSSH2_ERROR_TIMEOUT then TimedOut
      else Other
  | SFTP n =>
      if Z.eqb n LIBSSH2_FX_NO_SUCH_FILE || Z.eqb n LIBSSH2_FX_NO_SUCH_PATH
      then NotFound else Other
  end.

Definition io_error_from (err : Ssh2Error) : IoError :=
  IoCustom (kind_of_code (code err)) err.

(** The distinguished "would block" condition of a blocking call. *)
Definition ssh2_would_block (e : Ssh2Error) : bool :=
  match code e with
  | Session n => Z.eqb n LIBSSH2_ERROR_EAGAIN
  | SFTP _ => false
  end.

Definition io_would_block (e : IoError) : bool :=
  match kind e with
  | WouldBlock => true
  | _ => false
  end.

(** ** ssh2 data *)

Definition Path := string.
Definition PathBuf := string.
Definition OpenFlags := Z.
Definition RenameFlags := Z.

Inductive OpenType := OpenFile | OpenDir.

(** [ssh2::FileStat]: every field optional; [#[derive(Clone)]]. *)
Record FileStat := mk_file_stat {
  size : option Z;
  uid : option Z;
  gid : option Z;
  perm : option Z;
  atime : option Z;
  mtime : option Z
}.

Definition FileStat_clone (s : FileStat) : FileStat :=
  mk_file_stat (size s) (uid s) (gid s) (perm s) (atime s) (mtime s).

(** Handles of the blocking client: an [ssh2::Sftp] session and an open
    [ssh2::File], identified by the client. *)
Definition Sftp := positive.
Definition File := positive.

(** The blocking calls issued against the wrapped handles, with their
    arguments, as they appear in the event log. *)
Inductive Call :=
| CallOpenMode (p : Path) (flags : OpenFlags) (mode : Z) (ty : OpenType)
| CallOpen (p : Path)
| CallCreate (p : Path)
| CallOpendir (p : Path)
| CallReaddir (p : Path)
| CallMkdir (p : Path) (mode : Z)
| CallRmdir (p : Path)
| CallStat (p : Path)
| CallLstat (p : Path)
| CallSetstat (p : Path) (st : FileStat)
| CallSymlink (p : Path) (target : Path)
| CallReadlink (p : Path)
| CallRealpath (p : Path)
| CallRename (src dst : Path) (flags : option RenameFlags)
| CallUnlink (p : Path)
| CallFileRead (f : File)
| CallFileWrite (f : File) (bytes : list Byte.byte)
| CallFileFlush (f : File).

(** ** The reactor registration and the world *)

(** [Arc<Async<S>>]: a shared pointer to the one registration of the
    transport; [w_arcs] holds the strong counts. *)
Definition Arc := positive.

Inductive Direction := Readable | Writable.

(** The reactor's answer when a task waits for readiness
    ([optimistic(self.readable()).await?], crate async-io).  Each wait builds
    a fresh [Ready] future, and [optimistic] polls it once: that first poll
    registers the task's waker with the reactor and returns [Pending]
    ([NotReady]: the task suspends until the reactor wakes it, after which
    [optimistic] completes without polling again), or fails when updating
    the reactor's interest fails ([ReadyErr e]).  A first poll never reports
    readiness at once. *)
Inductive Readiness :=
| NotReady
| ReadyErr (e : IoError).

(** Observable events: a blocking call (flagged when it reported "would
    block") and a readiness wait on a registration. *)
Inductive Event :=
| EvCall (c : Call) (blocked : bool)
| EvWait (a : Arc) (d : Direction) (r : Readiness).

Section Sftp_model.

(** The remote side: protocol session and server state. *)
Context {R : Type}.

(** The blocking client, crate [ssh2]: one field per call the adapters use. *)
Record Ssh2Client := {
  sftp_open_mode : Sftp -> Path -> OpenFlags -> Z -> OpenType -> R -> Result File Ssh2Error * R;
  sftp_open : Sftp -> Path -> R -> Result File Ssh2Error * R;
  sftp_create : Sftp -> Path -> R -> Result File Ssh2Error * R;
  sftp_opendir : Sftp -> Path -> R -> Result File Ssh2Error * R;
  sftp_readdir : Sftp -> Path -> R -> Result (list (PathBuf * FileStat)) Ssh2Error * R;
  sftp_mkdir : Sftp -> Path -> Z -> R -> Result unit Ssh2Error * R;
  sftp_rmdir : Sftp -> Path -> R -> Result unit Ssh2Error * R;
  sftp_stat : Sftp -> Path -> R -> Result FileStat Ssh2Error * R;
  sftp_lstat : Sftp -> Path -> R -> Result FileStat Ssh2Error * R;
  sftp_setstat : Sftp -> Path -> FileStat -> R -> Result unit Ssh2Error * R;
  sftp_symlink : Sftp -> Path -> Path -> R -> Result unit Ssh2Error * R;
  sftp_readlink : Sftp -> Path -> R -> Result PathBuf Ssh2Error * R;
  sftp_realpath : Sftp -> Path -> R -> Result PathBuf Ssh2Error * R;
  sftp_rename : Sftp -> Path -> Path -> option RenameFlags -> R -> Result unit Ssh2Error * R;
  sftp_unlink : Sftp -> Path -> R -> Result unit Ssh2Error * R;
  (** [impl Read for File]: fills a prefix of the buffer, returns the count *)
  file_read : File -> list Byte.byte -> R -> Result (nat * list Byte.byte) IoError * R;
  (** [impl Write for File] *)
  file_write : File -> list Byte.byte -> R -> Result nat IoError * R;
  file_flush : File -> R -> Result unit IoError * R
}.

(** Everything an adapter call can observe or change: the remote state, the
    strong counts of the [Arc]s, the caller's read buffer and the log. *)
Record World := mk_world {
  w_remote : R;
  w_arcs : gmap positive nat;
  w_buf : list Byte.byte;
  w_log : list Event
}.

Definition log_event (ev : Event) (w : World) : World :=
  mk_world (w_remote w) (w_arcs w) (w_buf w) (w_log w ++ [ev]).

Definition set_remote (r : R) (w : World) : World :=
  mk_world r (w_arcs w) (w_buf w) (w_log w).

(** One blocking call [c] against a wrapped handle; [wb] tells whether the
    error it returned is the "would block" condition. *)
Definition blocking {A E : Type} (c : Call) (wb : E -> bool)
    (f : R -> Result A E * R) (w : World) : Result A E * World :=
  let '(r, rem) := f (w_remote w) in
  let blocked := match r with Ok _ => false | Err e => wb e end in
  (r, log_event (EvCall c blocked) (set_remote rem w)).

(** [Arc::clone]: same pointer, strong count plus one. *)
Definition arc_clone (a : Arc) (w : World) : Arc * World :=
  let n := default 0%nat (w_arcs w !! a) in
  (a, mk_world (w_remote w) (<[a := S n]> (w_arcs w)) (w_buf w) (w_log w)).

(** An I/O closure as passed to [read_with] / [write_with]. *)
Definition Op (A : Type) := World -> Result A IoError * World.

(** An async computation run against a readiness schedule: its outcome
    ([Pending] when the schedule ends before it completes), the rest of the
    schedule, and the final world. *)
Definition Async (A : Type) := list Readiness -> World -> Poll A * list Readiness * World.

(** [Async::read_with] / [Async::write_with] (crate async-io):
    {[
    loop {
        match op(self.get_ref()) {
            Err(err) if err.kind() == io::ErrorKind::WouldBlock => {}
            res => return res,
        }
        optimistic(self.writable()).await?;   // readable() for read_with
    }
    ]}
    [io_loop_await] is the future awaited to completion (inside an
    [async fn]): when the reactor answers [NotReady] the task suspends, and
    once woken [optimistic] reports ready, so the loop runs [op] again; an
    empty schedule is a task that is not woken (yet). *)
Fixpoint io_loop_await {A : Type} (a : Arc) (d : Direction) (op : Op A)
    (rs : list Readiness) (w : World) {struct rs}
  : Poll (Result A IoError) * list Readiness * World :=
  match op w with
  | (Err e, w1) =>
      if io_would_block e then
        match rs with
        | [] => (Pending, [], w1)
        | r :: rs' =>
            let w2 := log_event (EvWait a d r) w1 in
            match r with
            | NotReady => io_loop_await a d op rs' w2
            | ReadyErr e' => (Ready (Err e'), rs', w2)
            end
        end
      else (Ready (Err e), rs, w1)
  | (Ok v, w1) => (Ready (Ok v), rs, w1)
  end.

(** One poll of the same future, fresh: [op] runs; after a "would block"
    the first poll of the readiness future either registers the task
    ([NotReady]: the poll returns [Pending]) or fails.  The loop is never
    entered a second time within one poll. *)
Definition io_loop_poll {A : Type} (a : Arc) (d : Direction) (op : Op A)
    (rs : list Readiness) (w : World)
  : Poll (Result A IoError) * list Readiness * World :=
  match op w with
  | (Err e, w1) =>
      if io_would_block e then
        match rs with
        | [] => (Pending, [], w1)
        | r :: rs' =>
            let w2 := log_event (EvWait a d r) w1 in
            match r with
            | NotReady => (Pending, rs', w2)
            | ReadyErr e' => (Ready (Err e'), rs', w2)
            end
        end
      else (Ready (Err e), rs, w1)
  | (Ok v, w1) => (Ready (Ok v), rs, w1)
  end.

(** [self.async_io.write_with(op).await] and [self.async_io.read_with(op)]
    polled once. *)
Definition write_with {A : Type} (a : Arc) (op : Op A) : Async (Result A IoError) :=
  io_loop_await a Writable op.

Definition read_with_poll {A : Type} (a : Arc) (op : Op A) : Async (Result A IoError) :=
  io_loop_poll a Readable op.

Definition write_with_poll {A : Type} (a : Arc) (op : Op A) : Async (Result A IoError) :=
  io_loop_poll a Writable op.

(** Modelled from the spec: [crate::util::poll_once] (util.rs is not part
    of the sources).  Spec 4.1: a single poll of a single future; it
    returns the future's value if it resolves, [Pending] otherwise, and
    performs no retry loop itself. *)
Definition poll_once {A : Type} (fut : Async A) : Async A := fut.

(** Sequencing inside an [async fn]: run [m] to completion, then the
    synchronous continuation [k]. *)
Definition async_then {A B : Type} (m : Async A) (k : A -> World -> B * World)
  : Async B :=
  fun rs w =>
    match m rs w with
    | (Ready v, rs', w') => let '(b, w'') := k v w' in (Ready b, rs', w'')
    | (Pending, rs', w') => (Pending, rs', w')
    end.

(** ** The adapters *)

(** [pub struct AsyncSftp<S> { inner: Sftp, async_io: Arc<Async<S>> }] *)
Record AsyncSftp := mk_async_sftp { sftp_inner : Sftp; sftp_async_io : Arc }.

(** [pub struct AsyncFile<S> { inner: File, async_io: Arc<Async<S>> }] *)
Record AsyncFile := mk_async_file { file_inner : File; file_async_io : Arc }.

Definition AsyncSftp_from_parts (inner : Sftp) (async_io : Arc) : AsyncSftp :=
  mk_async_sftp inner async_io.

Definition AsyncFile_from_parts (inner : File) (async_io : Arc) : AsyncFile :=
  mk_async_file inner async_io.

Context (client : Ssh2Client).

(** *** The blocking calls of [ssh2::Sftp] and [ssh2::File] *)

Definition Sftp_open_mode (inner : Sftp) (filename : Path) (flags : OpenFlags)
    (mode : Z) (open_type : OpenType) :=
  blocking (CallOpenMode filename flags mode open_type) ssh2_would_block
    (sftp_open_mode client inner filename flags mode open_type).
Definition Sftp_open (inner : Sftp) (filename : Path) :=
  blocking (CallOpen filename) ssh2_would_block (sftp_open client inner filename).
Definition Sftp_create (inner : Sftp) (filename : Path) :=
  blocking (CallCreate filename) ssh2_would_block (sftp_create client inner filename).
Definition Sftp_opendir (inner : Sftp) (dirname : Path) :=
  blocking (CallOpendir dirname) ssh2_would_block (sftp_opendir client inner dirname).
Definition Sftp_readdir (inner : Sftp) (dirname : Path) :=
  blocking (CallReaddir dirname) ssh2_would_block (sftp_readdir client inner dirname).
Definition Sftp_mkdir (inner : Sftp) (filename : Path) (mode : Z) :=
  blocking (CallMkdir filename mode) ssh2_would_block (sftp_mkdir client inner filename mode).
Definition Sftp_rmdir (inner : Sftp) (filename : Path) :=
  blocking (CallRmdir filename) ssh2_would_block (sftp_rmdir client inner filename).
Definition Sftp_stat (inner : Sftp) (filename : Path) :=
  blocking (CallStat filename) ssh2_would_block (sftp_stat client inner filename).
Definition Sftp_lstat (inner : Sftp) (filename : Path) :=
  blocking (CallLstat filename) ssh2_would_block (sftp_lstat client inner filename).
Definition Sftp_setstat (inner : Sftp) (filename : Path) (stat : FileStat) :=
  blocking (CallSetstat filename stat) ssh2_would_block
    (sftp_setstat client inner filename stat).
Definition Sftp_symlink (inner : Sftp) (path target : Path) :=
  blocking (CallSymlink path target) ssh2_would_block (sftp_symlink client inner path target).
Definition Sftp_readlink (inner : Sftp) (path : Path) :=
  blocking (CallReadlink path) ssh2_would_block (sftp_readlink client inner path).
Definition Sftp_realpath (inner : Sftp) (path : Path) :=
  blocking (CallRealpath path) ssh2_would_block (sftp_realpath client inner path).
Definition Sftp_rename (inner : Sftp) (src dst : Path) (flags : option RenameFlags) :=
  blocking (CallRename src dst flags) ssh2_would_block (sftp_rename client inner src dst flags).
Definition Sftp_unlink (inner : Sftp) (file : Path) :=
  blocking (CallUnlink file) ssh2_would_block (sftp_unlink client inner file).

(** [inner.read(buf)] into the caller's buffer [w_buf]. *)
Definition File_read (inner : File) : Op nat :=
  fun w =>
    let '(r, w1) := blocking (CallFileRead inner) io_would_block
                      (file_read client inner (w_buf w)) w in
    match r with
    | Ok (n, buf') => (Ok n, mk_world (w_remote w1) (w_arcs w1) buf' (w_log w1))
    | Err e => (Err e, w1)
    end.

Definition File_write (inner : File) (buf : list Byte.byte) : Op nat :=
  blocking (CallFileWrite inner buf) io_would_block (file_write client inner buf).

Definition File_flush (inner : File) : Op unit :=
  blocking (CallFileFlush inner) io_would_block (file_flush client inner).

(** [.map_err(|err| err.into())] *)
Definition map_err_into {A : Type} (f : World -> Result A Ssh2Error * World) : Op A :=
  fun w => let '(r, w') := f w in (map_err io_error_from r, w').

(** [ret.and_then(|file| Ok(AsyncFile::from_parts(file, self.async_io.clone())))]:
    the closure, and with it the clone, runs on [Ok] only. *)
Definition and_then_from_parts (self : AsyncSftp) (ret : Result File IoError)
    (w : World) : Result AsyncFile IoError * World :=
  match ret with
  | Ok file =>
      let '(a, w') := arc_clone (sftp_async_io self) w in
      (Ok (AsyncFile_from_parts file a), w')
  | Err e => (Err e, w)
  end.

(** *** [impl AsyncSftp] *)

Definition open_mode (self : AsyncSftp) (filename : Path) (flags : OpenFlags)
    (mode : Z) (open_type : OpenType) : Async (Result AsyncFile IoError) :=
  let inner := sftp_inner self in
  async_then
    (write_with (sftp_async_io self)
       (map_err_into (Sftp_open_mode inner filename flags mode open_type)))
    (and_then_from_parts self).

Definition open (self : AsyncSftp) (filename : Path) : Async (Result AsyncFile IoError) :=
  let inner := sftp_inner self in
  async_then
    (write_with (sftp_async_io self) (map_err_into (Sftp_open inner filename)))
    (and_then_from_parts self).

Definition create (self : AsyncSftp) (filename : Path) : Async (Result AsyncFile IoError) :=
  let inner := sftp_inner self in
  async_then
    (write_with (sftp_async_io self) (map_err_into (Sftp_create inner filename)))
    (and_then_from_parts self).

Definition opendir (self : AsyncSftp) (dirname : Path) : Async (Result AsyncFile IoError) :=
  let inner := sftp_inner self in
  async_then
    (write_with (sftp_async_io self) (map_err_into (Sftp_opendir inner dirname)))
    (and_then_from_parts self).

Definition readdir (self : AsyncSftp) (dirname : Path)
  : Async (Result (list (PathBuf * FileStat)) IoError) :=
  let inner := sftp_inner self in
  write_with (sftp_async_io self) (map_err_into (Sftp_readdir inner dirname)).

Definition mkdir (self : AsyncSftp) (filename : Path) (mode : Z) : Async (Result unit IoError) :=
  let inner := sftp_inner self in
  write_with (sftp_async_io self) (map_err_into (Sftp_mkdir inner filename mode)).

Definition rmdir (self : AsyncSftp) (filename : Path) : Async (Result unit IoError) :=
  let inner := sftp_inner self in
  write_with (sftp_async_io self) (map_err_into (Sftp_rmdir inner filename)).

Definition stat (self : AsyncSftp) (filename : Path) : Async (Result FileStat IoError) :=
  let inner := sftp_inner self in
  write_with (sftp_async_io self) (map_err_into (Sftp_stat inner filename)).

Definition lstat (self : AsyncSftp) (filename : Path) : Async (Result FileStat IoError) :=
  let inner := sftp_inner self in
  write_with (sftp_async_io self) (map_err_into (Sftp_lstat inner filename)).

(** [inner.setstat(filename, stat.clone())]: a clone per run of the closure. *)
Definition setstat (self : AsyncSftp) (filename : Path) (stat : FileStat)
  : Async (Result unit IoError) :=
  let inner := sftp_inner self in
  write_with (sftp_async_io self)
    (fun w => map_err_into (Sftp_setstat inner filename (FileStat_clone stat)) w).

Definition symlink (self : AsyncSftp) (path target : Path) : Async (Result unit IoError) :=
  let inner := sftp_inner self in
  write_with (sftp_async_io self) (map_err_into (Sftp_symlink inner path target)).

Definition readlink (self : AsyncSftp) (path : Path) : Async (Result PathBuf IoError) :=
  let inner := sftp_inner self in
  write_with (sftp_async_io self) (map_err_into (Sftp_readlink inner path)).

Definition realpath (self : AsyncSftp) (path : Path) : Async (Result PathBuf IoError) :=
  let inner := sftp_inner self in
  write_with (sftp_async_io self) (map_err_into (Sftp_realpath inner path)).

Definition rename (self : AsyncSftp) (src dst : Path) (flags : option RenameFlags)
  : Async (Result unit IoError) :=
  let inner := sftp_inner self in
  write_with (sftp_async_io self) (map_err_into (Sftp_rename inner src dst flags)).

Definition unlink (self : AsyncSftp) (file : Path) : Async (Result unit IoError) :=
  let inner := sftp_inner self in
  write_with (sftp_async_io self) (map_err_into (Sftp_unlink inner file)).

(** *** [impl AsyncRead for AsyncFile] and [impl AsyncWrite for AsyncFile] *)

Definition poll_read (this : AsyncFile) : Async (Result nat IoError) :=
  let inner := file_inner this in
  poll_once (read_with_poll (file_async_io this) (File_read inner)).

Definition poll_write (this : AsyncFile) (buf : list Byte.byte) : Async (Result nat IoError) :=
  let inner := file_inner this in
  poll_once (write_with_poll (file_async_io this) (File_write inner buf)).

Definition poll_flush (this : AsyncFile) : Async (Result unit IoError) :=
  let inner := file_inner this in
  poll_once (write_with_poll (file_async_io this) (File_flush inner)).

(** [let _ = &mut this.inner; // TODO
     poll_once(cx, this.async_io.write_with(|_| Ok(())))] *)
Definition poll_close (this : AsyncFile) : Async (Result unit IoError) :=
  poll_once (write_with_poll (file_async_io this) (fun w => (Ok tt, w))).

(** ** The session methods as one invocation type *)

(** The four methods that return a new [AsyncFile]. *)
Inductive OpenCall :=
| OcOpenMode (filename : Path) (flags : OpenFlags) (mode : Z) (open_type : OpenType)
| OcOpen (filename : Path)
| OcCreate (filename : Path)
| OcOpendir (dirname : Path).

(** All fifteen methods of [impl AsyncSftp], with their arguments. *)
Inductive SessionCall :=
| ScOpen (o : OpenCall)
| ScReaddir (dirname : Path)
| ScMkdir (filename : Path) (mode : Z)
| ScRmdir (filename : Path)
| ScStat (filename : Path)
| ScLstat (filename : Path)
| ScSetstat (filename : Path) (st : FileStat)
| ScSymlink (path target : Path)
| ScReadlink (path : Path)
| ScRealpath (path : Path)
| ScRename (src dst : Path) (flags : option RenameFlags)
| ScUnlink (file : Path).

Definition run_open (self : AsyncSftp) (o : OpenCall) : Async (Result AsyncFile IoError) :=
  match o with
  | OcOpenMode p fl m t => open_mode self p fl m t
  | OcOpen p => open self p
  | OcCreate p => create self p
  | OcOpendir p => opendir self p
  end.

(** The blocking call each open method issues. *)
Definition open_blocking (inner : Sftp) (o : OpenCall)
  : World -> Result File Ssh2Error * World :=
  match o with
  | OcOpenMode p fl m t => Sftp_open_mode inner p fl m t
  | OcOpen p => Sftp_open inner p
  | OcCreate p => Sftp_create inner p
  | OcOpendir p => Sftp_opendir inner p
  end.

Definition open_call (o : OpenCall) : Call :=
  match o with
  | OcOpenMode p fl m t => CallOpenMode p fl m t
  | OcOpen p => CallOpen p
  | OcCreate p => CallCreate p
  | OcOpendir p => CallOpendir p
  end.

(** The result type of each method, and of the blocking call it issues. *)
Definition session_ret (s : SessionCall) : Type :=
  match s with
  | ScOpen _ => AsyncFile
  | ScReaddir _ => list (PathBuf * FileStat)
  | ScStat _ | ScLstat _ => FileStat
  | ScReadlink _ | ScRealpath _ => PathBuf
  | ScMkdir _ _ | ScRmdir _ | ScSetstat _ _ | ScSymlink _ _ | ScRename _ _ _
  | ScUnlink _ => unit
  end.

Definition session_raw_ret (s : SessionCall) : Type :=
  match s with
  | ScOpen _ => File
  | _ => session_ret s
  end.

Definition run_session (self : AsyncSftp) (s : SessionCall)
  : Async (Result (session_ret s) IoError) :=
  match s as s0 return Async (Result (session_ret s0) IoError) with
  | ScOpen o => run_open self o
  | ScReaddir p => readdir self p
  | ScMkdir p m => mkdir self p m
  | ScRmdir p => rmdir self p
  | ScStat p => stat self p
  | ScLstat p => lstat self p
  | ScSetstat p st => setstat self p st
  | ScSymlink p t => symlink self p t
  | ScReadlink p => readlink self p
  | ScRealpath p => realpath self p
  | ScRename s d fl => rename self s d fl
  | ScUnlink p => unlink self p
  end.

Definition session_blocking (inner : Sftp) (s : SessionCall)
  : World -> Result (session_raw_ret s) Ssh2Error * World :=
  match s as s0 return World -> Result (session_raw_ret s0) Ssh2Error * World with
  | ScOpen o => open_blocking inner o
  | ScReaddir p => Sftp_readdir inner p
  | ScMkdir p m => Sftp_mkdir inner p m
  | ScRmdir p => Sftp_rmdir inner p
  | ScStat p => Sftp_stat inner p
  | ScLstat p => Sftp_lstat inner p
  | ScSetstat p st => Sftp_setstat inner p st
  | ScSymlink p t => Sftp_symlink inner p t
  | ScReadlink p => Sftp_readlink inner p
  | ScRealpath p => Sftp_realpath inner p
  | ScRename s d fl => Sftp_rename inner s d fl
  | ScUnlink p => Sftp_unlink inner p
  end.

(** Whether a session method is one of the four open methods. *)
Definition is_open_call (s : SessionCall) : bool :=
  match s with
  | ScOpen _ => true
  | _ => false
  end.

Definition session_call (s : SessionCall) : Call :=
  match s with
  | ScOpen o => open_call o
  | ScReaddir p => CallReaddir p
  | ScMkdir p m => CallMkdir p m
  | ScRmdir p => CallRmdir p
  | ScStat p => CallStat p
  | ScLstat p => CallLstat p
  | ScSetstat p st => CallSetstat p st
  | ScSymlink p t => CallSymlink p t
  | ScReadlink p => CallReadlink p
  | ScRealpath p => CallRealpath p
  | ScRename s d fl => CallRename s d fl
  | ScUnlink p => CallUnlink p
  end.

(** What a method returns for a given result of its blocking call: the
    ssh2 error converted by [.map_err(|err| err.into())], and for the open
    methods a [File] wrapped with the session's pointer by
    [.and_then(|file| Ok(AsyncFile::from_parts(file, ...)))]. *)
Definition session_result (self : AsyncSftp) (s : SessionCall)
  : Result (session_raw_ret s) Ssh2Error -> Result (session_ret s) IoError :=
  match s as s0 return Result (session_raw_ret s0) Ssh2Error -> Result (session_ret s0) IoError with
  | ScOpen _ => fun r =>
      match r with
      | Ok file => Ok (AsyncFile_from_parts file (sftp_async_io self))
      | Err e => Err (io_error_from e)
      end
  | _ => map_err io_error_from
  end.

(** ** Observations on runs *)

Definition outcome {A : Type} (x : Poll A * list Readiness * World) : Poll A := fst (fst x).
Definition final {A : Type} (x : Poll A * list Readiness * World) : World := snd x.

(** Whether a closure's result is the "would block" condition. *)
Definition result_blocked {A : Type} (r : Result A IoError) : bool :=
  match r with
  | Ok _ => false
  | Err e => io_would_block e
  end.

(** A closure that performs exactly one blocking call [c] and logs it with
    its would-block flag, leaving the [Arc] counts alone. *)
Definition one_call {A : Type} (c : Call) (op : Op A) : Prop :=
  forall w r w', op w = (r, w') ->
    w_log w' = w_log w ++ [EvCall c (result_blocked r)] /\ w_arcs w' = w_arcs w.

End Sftp_model.

(** ** Shapes of the event log *)

(** The log of one [read_with]/[write_with] future awaited to completion:
    rounds of (call reporting "would block", readiness wait at which the task
    suspended and was woken), then a final call that did not block, a final
    call that blocked with no further answer from the reactor, or a reactor
    error. *)
Inductive await_trace (a : Arc) (d : Direction) (c : Call) : list Event -> Prop :=
| at_done : await_trace a d c [EvCall c false]
| at_stuck : await_trace a d c [EvCall c true]
| at_error e : await_trace a d c [EvCall c true; EvWait a d (ReadyErr e)]
| at_retry tr :
    await_trace a d c tr ->
    await_trace a d c (EvCall c true :: EvWait a d NotReady :: tr).

(** The log of a single poll of such a future: one call, followed, when it
    reported "would block", by at most one readiness wait. *)
Inductive poll_trace (a : Arc) (d : Direction) (c : Call) : list Event -> Prop :=
| pt_done : poll_trace a d c [EvCall c false]
| pt_stuck : poll_trace a d c [EvCall c true]
| pt_pending : poll_trace a d c [EvCall c true; EvWait a d NotReady]
| pt_error e : poll_trace a d c [EvCall c true; EvWait a d (ReadyErr e)].

(** ** A concrete client, for runs on explicit inputs *)

Definition eagain : Ssh2Error := mk_ssh2_error (Session LIBSSH2_ERROR_EAGAIN) "would block".
Definition no_such_file : Ssh2Error := mk_ssh2_error (SFTP LIBSSH2_FX_NO_SUCH_FILE) "no such file".
Definition os_would_block : IoError := IoOs WouldBlock 11.
Definition reactor_error : IoError := IoOs Other 9.

Definition empty_stat : FileStat := mk_file_stat None None None None None None.
Definition stat_a : FileStat := mk_file_stat (Some 42) None None (Some 420) None None.

(** The remote state counts the calls served so far; [stat] and [read]
    report "would block" on the first call only, [open] and [opendir] reject
    the path "missing". *)
Definition ex_client : @Ssh2Client nat := {|
  sftp_open_mode := fun _ p _ _ _ r =>
    if String.eqb p "missing" then (Err no_such_file, S r) else (Ok 7%positive, S r);
  sftp_open := fun _ p r =>
    if String.eqb p "missing" then (Err no_such_file, S r) else (Ok 7%positive, S r);
  sftp_create := fun _ _ r => (Ok 7%positive, S r);
  sftp_opendir := fun _ p r =>
    if String.eqb p "missing" then (Err no_such_file, S r) else (Ok 8%positive, S r);
  sftp_readdir := fun _ _ r => (Ok [("a"%string, stat_a); ("b"%string, empty_stat)], S r);
  sftp_mkdir := fun _ _ _ r => (Ok tt, S r);
  sftp_rmdir := fun _ _ r => (Ok tt, S r);
  sftp_stat := fun _ _ r => match r with O => (Err eagain, S r) | S _ => (Ok stat_a, S r) end;
  sftp_lstat := fun _ _ r => (Ok stat_a, S r);
  sftp_setstat := fun _ _ _ r => (Ok tt, S r);
  sftp_symlink := fun _ _ _ r => (Ok tt, S r);
  sftp_readlink := fun _ p r => (Ok p, S r);
  sftp_realpath := fun _ p r => (Ok p, S r);
  sftp_rename := fun _ _ _ _ r => (Ok tt, S r);
  sftp_unlink := fun _ _ r => (Ok tt, S r);
  file_read := fun _ buf r =>
    match r with
    | O => (Err os_would_block, S r)
    | S _ => (Ok (3%nat, [Byte.x61; Byte.x62; Byte.x63] ++ drop 3 buf), S r)
    end;
  file_write := fun _ buf r => (Ok (length buf), S r);
  file_flush := fun _ r => (Ok tt, S r)
|}.

Definition ex_self : AsyncSftp := AsyncSftp_from_parts 1%positive 1%positive.
Definition ex_file : AsyncFile := AsyncFile_from_parts 7%positive 1%positive.

(** Initially one [Arc] (the session's) and an eight-byte read buffer. *)
Definition ex_world : @World nat :=
  mk_world 0%nat {[1%positive := 1%nat]} (repeat Byte.x00 8) [].

(** * Lemmas about the reactor loop *)

Lemma io_error_from_would_block (e : Ssh2Error) :
  io_would_block (io_error_from e) = ssh2_would_block e.
Proof.
  destruct e as [[n | n] m]; unfold io_would_block, io_error_from, ssh2_would_block; simpl.
  - destruct (Z.eqb n LIBSSH2_ERROR_EAGAIN); [reflexivity |].
    destruct (Z.eqb n LIBSSH2_ERROR_TIMEOUT); reflexivity.
  - destruct (_ || _); reflexivity.
Qed.

Lemma FileStat_clone_id (st : FileStat) : FileStat_clone st = st.
Proof. destruct st; reflexivity. Qed.

(** Closes the goals [log = log ++ tr /\ trace tr /\ arcs = arcs]. *)
Ltac trace_step :=
  repeat split; try assumption; try reflexivity;
  try (econstructor; solve [eauto | left; reflexivity | right; reflexivity]).

Section Loop.

Context {R : Type} {A : Type}.
Implicit Types (w : @World R) (rs : list Readiness).

Lemma map_err_into_one_call {B : Type} (c : Call) (f : R -> Result B Ssh2Error * R) :
  one_call c (map_err_into (blocking c ssh2_would_block f)).
Proof.
  intros w r w'. unfold map_err_into, blocking.
  destruct (f (w_remote w)) as [[v | e] rem]; intros H; inversion H; subst; simpl.
  - split; reflexivity.
  - rewrite io_error_from_would_block. split; reflexivity.
Qed.

Lemma blocking_io_one_call (c : Call) (f : R -> Result A IoError * R) :
  one_call c (blocking c io_would_block f).
Proof.
  intros w r w'. unfold blocking.
  destruct (f (w_remote w)) as [[v | e] rem]; intros H; inversion H; subst; simpl;
    split; reflexivity.
Qed.

Context (a : Arc) (d : Direction) (op : @Op R A).

Lemma io_loop_await_log (c : Call) :
  one_call c op -> forall rs w,
  exists tr, w_log (final (io_loop_await a d op rs w)) = w_log w ++ tr /\
             await_trace a d c tr /\
             w_arcs (final (io_loop_await a d op rs w)) = w_arcs w.
Proof.
  intros Hop rs. induction rs as [| r rs IH]; intros w; unfold final; simpl;
    destruct (op w) as [[v | e] w1] eqn:E; destruct (Hop _ _ _ E) as [Hl Ha]; simpl in Hl.
  - exists [EvCall c false]. trace_step.
  - exists [EvCall c (io_would_block e)].
    destruct (io_would_block e); simpl; trace_step.
  - exists [EvCall c false]. trace_step.
  - destruct (io_would_block e) eqn:Wb; simpl.
    + destruct r as [| e'].
      * destruct (IH (log_event (EvWait a d NotReady) w1)) as (tr & Htr & Ht & Har).
        exists (EvCall c true :: EvWait a d NotReady :: tr). unfold final in *.
        rewrite Htr, Har. simpl. rewrite Hl, <- !app_assoc.
        trace_step.
      * exists [EvCall c true; EvWait a d (ReadyErr e')]. simpl.
        rewrite Hl, <- app_assoc. trace_step.
    + exists [EvCall c false]. trace_step.
Qed.

Lemma io_loop_poll_log (c : Call) :
  one_call c op -> forall rs w,
  exists tr, w_log (final (io_loop_poll a d op rs w)) = w_log w ++ tr /\
             poll_trace a d c tr /\
             w_arcs (final (io_loop_poll a d op rs w)) = w_arcs w.
Proof.
  intros Hop rs w. destruct rs as [| r rs]; unfold final, io_loop_poll; simpl;
    destruct (op w) as [[v | e] w1] eqn:E; destruct (Hop _ _ _ E) as [Hl Ha]; simpl in Hl.
  - exists [EvCall c false]. trace_step.
  - exists [EvCall c (io_would_block e)].
    destruct (io_would_block e); simpl; trace_step.
  - exists [EvCall c false]. trace_step.
  - destruct (io_would_block e) eqn:Wb; simpl.
    + destruct r as [| e'].
      * exists [EvCall c true; EvWait a d NotReady]. simpl.
        rewrite Hl, <- app_assoc. trace_step.
      * exists [EvCall c true; EvWait a d (ReadyErr e')]. simpl.
        rewrite Hl, <- app_assoc. trace_step.
    + exists [EvCall c false]. trace_step.
Qed.

(** A completed loop returns either the result of the last run of [op]
    (never "would block"), leaving the world as that run left it, or the
    reactor's error, logged as the last event. *)
Lemma io_loop_await_ready rs w r :
  outcome (io_loop_await a d op rs w) = Ready r ->
  (exists w0, op w0 = (r, final (io_loop_await a d op rs w)) /\ result_blocked r = false) \/
  (exists e l, r = Err e /\
     w_log (final (io_loop_await a d op rs w)) = l ++ [EvWait a d (ReadyErr e)]).
Proof.
  revert w. induction rs as [| r0 rs IH]; intros w; unfold outcome, final; simpl;
    destruct (op w) as [[v | e] w1] eqn:E; simpl; intros H.
  - inversion H; subst. left. exists w. split; [assumption | reflexivity].
  - destruct (io_would_block e) eqn:Wb; simpl in H; [discriminate |].
    inversion H; subst. left. exists w. split; [assumption | exact Wb].
  - inversion H; subst. left. exists w. split; [assumption | reflexivity].
  - destruct (io_would_block e) eqn:Wb; simpl in H.
    + destruct r0 as [| e']; simpl in H.
      * apply IH. exact H.
      * inversion H; subst. right. exists e', (w_log w1). split; reflexivity.
    + inversion H; subst. left. exists w. split; [assumption | exact Wb].
Qed.

Lemma io_loop_poll_ready rs w r :
  outcome (io_loop_poll a d op rs w) = Ready r ->
  (exists w0, op w0 = (r, final (io_loop_poll a d op rs w)) /\ result_blocked r = false) \/
  (exists e l, r = Err e /\
     w_log (final (io_loop_poll a d op rs w)) = l ++ [EvWait a d (ReadyErr e)]).
Proof.
  destruct rs as [| r0 rs]; unfold outcome, final, io_loop_poll; simpl;
    destruct (op w) as [[v | e] w1] eqn:E; simpl; intros H.
  - inversion H; subst. left. exists w. split; [assumption | reflexivity].
  - destruct (io_would_block e) eqn:Wb; simpl in H; [discriminate |].
    inversion H; subst. left. exists w. split; [assumption | exact Wb].
  - inversion H; subst. left. exists w. split; [assumption | reflexivity].
  - destruct (io_would_block e) eqn:Wb; simpl in H.
    + destruct r0 as [| e']; simpl in H.
      * discriminate.
      * inversion H; subst. right. exists e', (w_log w1). split; reflexivity.
    + inversion H; subst. left. exists w. split; [assumption | exact Wb].
Qed.

(** The log of an awaited loop, with how it ends: a run that completed
    ends with a call that did not block or with a reactor error (then the
    outcome); a pending run ends with a call that reported "would block". *)
Lemma io_loop_await_end (c : Call) :
  one_call c op -> forall rs w,
  exists tr, w_log (final (io_loop_await a d op rs w)) = w_log w ++ tr /\
    await_trace a d c tr /\
    (forall r, outcome (io_loop_await a d op rs w) = Ready r ->
       (exists l, tr = l ++ [EvCall c false]) \/
       (exists e l, r = Err e /\ tr = l ++ [EvWait a d (ReadyErr e)])) /\
    (outcome (io_loop_await a d op rs w) = Pending -> exists l, tr = l ++ [EvCall c true]).
Proof.
  intros Hop rs. induction rs as [| r0 rs IH]; intros w; unfold final, outcome; simpl;
    destruct (op w) as [[v | e] w1] eqn:E; destruct (Hop _ _ _ E) as [Hl _]; simpl in Hl.
  - exists [EvCall c false]. repeat split; [exact Hl | constructor | | ].
    + intros r _. left. exists []. reflexivity.
    + discriminate.
  - destruct (io_would_block e) eqn:Wb; simpl.
    + exists [EvCall c true]. repeat split; [exact Hl | constructor | | ].
      * discriminate.
      * intros _. exists []. reflexivity.
    + exists [EvCall c false]. repeat split; [exact Hl | constructor | | ].
      * intros r _. left. exists []. reflexivity.
      * discriminate.
  - exists [EvCall c false]. repeat split; [exact Hl | constructor | | ].
    + intros r _. left. exists []. reflexivity.
    + discriminate.
  - destruct (io_would_block e) eqn:Wb; simpl.
    + destruct r0 as [| e'].
      * destruct (IH (log_event (EvWait a d NotReady) w1)) as (tr & Htr & Ht & Hr & Hp).
        unfold final, outcome in Htr, Hr, Hp.
        exists (EvCall c true :: EvWait a d NotReady :: tr). repeat split.
        -- rewrite Htr. simpl. rewrite Hl, <- !app_assoc. reflexivity.
        -- constructor. exact Ht.
        -- intros r H. destruct (Hr r H) as [(l & ->) | (e0 & l & He & ->)].
           ++ left. exists (EvCall c true :: EvWait a d NotReady :: l). reflexivity.
           ++ right. exists e0, (EvCall c true :: EvWait a d NotReady :: l). split; [exact He | reflexivity].
        -- intros H. destruct (Hp H) as (l & ->).
           exists (EvCall c true :: EvWait a d NotReady :: l). reflexivity.
      * exists [EvCall c true; EvWait a d (ReadyErr e')]. repeat split.
        -- simpl. rewrite Hl, <- app_assoc. reflexivity.
        -- constructor.
        -- intros r H. inversion H; subst. right. exists e', [EvCall c true]. split; reflexivity.
        -- discriminate.
    + exists [EvCall c false]. repeat split; [exact Hl | constructor | | ].
      * intros r _. left. exists []. reflexivity.
      * discriminate.
Qed.

(** A single poll that completes returns the result of the one run of
    [op] on the world it was polled in, or the reactor's error. *)
Lemma io_loop_poll_ready_now rs w r :
  outcome (io_loop_poll a d op rs w) = Ready r ->
  (op w = (r, final (io_loop_poll a d op rs w)) /\ result_blocked r = false) \/
  (exists e l, r = Err e /\ w_log (final (io_loop_poll a d op rs w)) = l ++ [EvWait a d (ReadyErr e)]).
Proof.
  unfold outcome, final, io_loop_poll.
  destruct (op w) as [[v | e] w1] eqn:E; simpl; intros H.
  - inversion H; subst. left. split; reflexivity.
  - destruct (io_would_block e) eqn:Wb; simpl in H.
    + destruct rs as [| [| e'] rs']; simpl in H; try discriminate.
      inversion H; subst. right. exists e', (w_log w1). split; reflexivity.
    + inversion H; subst. left. split; [reflexivity | exact Wb].
Qed.

End Loop.

Lemma await_trace_waits a d c tr a' d' r :
  await_trace a d c tr -> In (EvWait a' d' r) tr -> a' = a /\ d' = d.
Proof.
  induction 1; simpl; intros Hin; intuition congruence.
Qed.

Lemma await_trace_calls a d c tr c' b :
  await_trace a d c tr -> In (EvCall c' b) tr -> c' = c.
Proof.
  induction 1; simpl; intros Hin; intuition congruence.
Qed.

(** A single poll makes exactly one call: the first event; the events after
    it are readiness waits on [a] in direction [d] only. *)
Lemma poll_trace_one_call a d c tr :
  poll_trace a d c tr ->
  exists b tr', tr = EvCall c b :: tr' /\
    (forall c' b', ~ In (EvCall c' b') tr') /\
    (forall a' d' r, In (EvWait a' d' r) tr' -> a' = a /\ d' = d).
Proof.
  intros H; inversion H; subst; eexists _, _; (split; [reflexivity |]);
    simpl; split; intros; intuition congruence.
Qed.

(** * The adapters *)

Section Adapters.

Context {R : Type} (client : @Ssh2Client R).
Implicit Types (w : @World R) (rs : list Readiness) (self : AsyncSftp) (this : AsyncFile).

Lemma run_open_eq self o :
  run_open client self o =
  async_then (write_with (sftp_async_io self)
                (map_err_into (open_blocking client (sftp_inner self) o)))
             (and_then_from_parts self).
Proof. destruct o; reflexivity. Qed.

Lemma open_blocking_one_call inner o :
  one_call (open_call o) (map_err_into (open_blocking client inner o)).
Proof. destruct o; apply map_err_into_one_call. Qed.

Lemma map_err_into_err {B : Type} (f : World -> Result B Ssh2Error * World) w0 e w' :
  map_err_into f w0 = (Err e, w') ->
  exists e0, f w0 = (Err e0, w') /\ e = io_error_from e0.
Proof.
  unfold map_err_into. destruct (f w0) as [[v | e0] w1]; simpl; intros H;
    inversion H; subst. exists e0. split; reflexivity.
Qed.

Lemma map_err_into_ok {B : Type} (f : World -> Result B Ssh2Error * World) w0 v w' :
  map_err_into f w0 = (Ok v, w') -> f w0 = (Ok v, w').
Proof.
  unfold map_err_into. destruct (f w0) as [[v' | e0] w1]; simpl; intros H;
    inversion H; subst. reflexivity.
Qed.

(** The failure outcome of an awaited [write_with] over a converted
    blocking call. *)
Lemma write_with_failure {B : Type} (a : Arc) (f : World -> Result B Ssh2Error * World) rs w e :
  outcome (write_with a (map_err_into f) rs w) = Ready (Err e) ->
  (exists w0 e0, f w0 = (Err e0, final (write_with a (map_err_into f) rs w)) /\
                 e = io_error_from e0 /\ ssh2_would_block e0 = false) \/
  (exists l, w_log (final (write_with a (map_err_into f) rs w)) =
             l ++ [EvWait a Writable (ReadyErr e)]).
Proof.
  intros H. destruct (io_loop_await_ready a Writable (map_err_into f) rs w _ H)
    as [(w0 & Hw0 & Hb) | (e' & l & He & Hl)].
  - left. destruct (map_err_into_err f w0 e _ Hw0) as (e0 & Hf & ->).
    exists w0, e0. simpl in Hb. rewrite io_error_from_would_block in Hb.
    repeat split; assumption.
  - right. inversion He; subst. exists l. exact Hl.
Qed.

Lemma run_open_err self o rs w e :
  outcome (run_open client self o rs w) = Ready (Err e) ->
  let loop := write_with (sftp_async_io self)
                (map_err_into (open_blocking client (sftp_inner self) o)) rs w in
  outcome loop = Ready (Err e) /\ snd (fst loop) = snd (fst (run_open client self o rs w)) /\
  final loop = final (run_open client self o rs w).
Proof.
  rewrite run_open_eq. unfold async_then, outcome, final. simpl.
  destruct (write_with _ _ rs w) as [[[[f | e'] |] rs'] w'];
    simpl; intros H; try discriminate; inversion H; subst; repeat split.
Qed.

Lemma run_session_log self s rs w :
  exists tr, w_log (final (run_session client self s rs w)) = w_log w ++ tr /\
             await_trace (sftp_async_io self) Writable (session_call s) tr.
Proof.
  destruct s; cbn [run_session session_call].
  1: { rewrite run_open_eq. unfold async_then, final.
    destruct (io_loop_await_log (sftp_async_io self) Writable _ _
                (open_blocking_one_call (sftp_inner self) o) rs w) as (tr & Hl & Ht & _).
    unfold final in Hl. unfold write_with.
    destruct (io_loop_await _ _ _ rs w) as [[[v |] rs'] w'].
    + destruct v as [f | e']; simpl in *; exists tr; split; assumption.
    + exists tr; split; assumption. }
  all: unfold readdir, mkdir, rmdir, stat, lstat, setstat, symlink, readlink,
      realpath, rename, unlink, write_with; try rewrite FileStat_clone_id;
    match goal with
    | |- context [io_loop_await ?a ?d ?op ?rs0 ?w0] =>
        destruct (io_loop_await_log a d op _ (map_err_into_one_call _ _) rs0 w0)
          as (tr & Hl & Ht & _)
    end;
    exists tr; split; assumption.
Qed.

(** A completed awaited [write_with] over a converted blocking call returns
    the converted result of the last call (never "would block"), with the
    world that call left, or the reactor's error. *)
Lemma write_with_ready {B : Type} (a : Arc) (f : World -> Result B Ssh2Error * World) rs w r :
  outcome (write_with a (map_err_into f) rs w) = Ready r ->
  (exists w0 raw, f w0 = (raw, final (write_with a (map_err_into f) rs w)) /\
                  r = map_err io_error_from raw /\ result_blocked r = false) \/
  (exists e l, r = Err e /\ w_log (final (write_with a (map_err_into f) rs w)) =
                            l ++ [EvWait a Writable (ReadyErr e)]).
Proof.
  intros H. destruct (io_loop_await_ready a Writable (map_err_into f) rs w _ H)
    as [(w0 & Hw0 & Hb) | (e & l & He & Hl)].
  - left. unfold map_err_into in Hw0. destruct (f w0) as [raw w1] eqn:Ef.
    inversion Hw0; subst. exists w0, raw. split; [exact Ef | split; [reflexivity | exact Hb]].
  - right. exists e, l. split; assumption.
Qed.

(** Every completed session method returns [session_result] of the result
    of its last blocking call, or the reactor's error. *)
Lemma run_session_ready self s rs w r :
  outcome (run_session client self s rs w) = Ready r ->
  (exists w0 raw w1, session_blocking client (sftp_inner self) s w0 = (raw, w1) /\
     r = session_result self s raw /\ result_blocked r = false /\
     w_log (final (run_session client self s rs w)) = w_log w1 /\
     w_remote (final (run_session client self s rs w)) = w_remote w1) \/
  (exists e l, r = Err e /\ w_log (final (run_session client self s rs w)) =
                            l ++ [EvWait (sftp_async_io self) Writable (ReadyErr e)]).
Proof.
  destruct s; cbn [run_session session_blocking session_result].
  1: { rewrite run_open_eq. unfold async_then, outcome, final.
    pose proof (write_with_ready (sftp_async_io self)
                  (open_blocking client (sftp_inner self) o) rs w) as G.
    unfold outcome, final in G.
    destruct (write_with _ _ rs w) as [[[v |] rs'] w']; simpl in *; intros H;
      [| discriminate H].
    destruct v as [file | e'].
    - inversion H; subst.
      destruct (G _ eq_refl) as [(w0 & raw & Hf & Hr & _) | (e & l & He & _)];
        [| discriminate He].
      destruct raw as [file' | e0]; simpl in Hr; inversion Hr; subst.
      left. exists w0, (Ok file'), w'. split; [exact Hf |].
      split; [reflexivity |]. split; [reflexivity |]. split; reflexivity.
    - inversion H; subst.
      destruct (G _ eq_refl) as [(w0 & raw & Hf & Hr & Hb) | (e & l & He & Hl)].
      + destruct raw as [file' | e0]; simpl in Hr; inversion Hr; subst.
        left. exists w0, (Err e0), w'. repeat split; try assumption; reflexivity.
      + right. inversion He; subst. exists e, l. split; [reflexivity | assumption]. }
  all: unfold readdir, mkdir, rmdir, stat, lstat, setstat, symlink, readlink,
      realpath, rename, unlink; try rewrite FileStat_clone_id; intros H;
    destruct (write_with_ready _ _ rs w r H) as [(w0 & raw & Hf & Hr & Hb) | X];
    [left; exists w0, raw; eexists; split; [exact Hf |]; repeat split; try assumption; reflexivity
    | right; exact X].
Qed.

(** The log of every session method, with how it ends. *)
Lemma run_session_end self s rs w :
  exists tr, w_log (final (run_session client self s rs w)) = w_log w ++ tr /\
    await_trace (sftp_async_io self) Writable (session_call s) tr /\
    (forall r, outcome (run_session client self s rs w) = Ready r ->
       (exists l, tr = l ++ [EvCall (session_call s) false]) \/
       (exists e l, r = Err e /\ tr = l ++ [EvWait (sftp_async_io self) Writable (ReadyErr e)])) /\
    (outcome (run_session client self s rs w) = Pending ->
       exists l, tr = l ++ [EvCall (session_call s) true]).
Proof.
  destruct s; cbn [run_session session_call].
  1: { rewrite run_open_eq. unfold async_then, final, outcome.
    destruct (io_loop_await_end (sftp_async_io self) Writable _ _
                (open_blocking_one_call (sftp_inner self) o) rs w) as (tr & Hl & Ht & Hr & Hp).
    unfold final, outcome in Hl, Hr, Hp. unfold write_with.
    destruct (io_loop_await _ _ _ rs w) as [[[v |] rs'] w']; simpl in *.
    + exists tr. destruct v as [f | e']; simpl.
      * repeat split; [exact Hl | exact Ht | | discriminate].
        intros r _. destruct (Hr _ eq_refl) as [X | (e & l & He & _)];
          [left; exact X | discriminate He].
      * repeat split; [exact Hl | exact Ht | | discriminate].
        intros r H. inversion H; subst.
        destruct (Hr _ eq_refl) as [X | (e & l & He & Hl')]; [left; exact X |].
        right. inversion He; subst. exists e, l. split; reflexivity.
    + exists tr. repeat split; [exact Hl | exact Ht | discriminate | ].
      intros _. exact (Hp eq_refl). }
  all: unfold readdir, mkdir, rmdir, stat, lstat, setstat, symlink, readlink,
      realpath, rename, unlink, write_with; try rewrite FileStat_clone_id;
    match goal with
    | |- context [io_loop_await ?a ?d ?op ?rs0 ?w0] =>
        destruct (io_loop_await_end a d op _ (map_err_into_one_call _ _) rs0 w0)
          as (tr & Hl & Ht & Hr & Hp)
    end;
    exists tr; repeat split; assumption.
Qed.

(** [inner.read(buf)] makes one logged call and leaves the counts alone. *)
Lemma File_read_one_call inner :
  one_call (CallFileRead inner) (File_read client inner).
Proof.
  intros w0 r w' H. unfold File_read, blocking in H.
  destruct (file_read client inner (w_buf w0) (w_remote w0))
    as [[[n buf'] | e] rem]; simpl in H; inversion H; subst; simpl; split; reflexivity.
Qed.

Lemma poll_close_eq this rs w :
  poll_close this rs w = (Ready (Ok tt), rs, w).
Proof. destruct rs; reflexivity. Qed.

End Adapters.

(** * The claims *)

Section Claims.

Context {R : Type} (client : @Ssh2Client R).
Implicit Types (w : @World R) (rs : list Readiness) (self : AsyncSftp) (this : AsyncFile).

(** C1 (as amended): every completed session method, and every completed
    poll of [poll_read], [poll_write] and [poll_flush], returns either the
    result of its last blocking call, passed through: for the session
    methods converted by [session_result] (a success stays a success, an
    error becomes its [io_error_from] conversion), for the file calls as
    returned, and never the "would block" condition; or the reactor's own
    error from a readiness wait, logged as the last event.  So no error is
    recovered into a success, masked or replaced at this layer. *)
Theorem session_handle_failure_outcome :
  (forall self s rs w r,
     outcome (run_session client self s rs w) = Ready r ->
     (exists w0 raw w1, session_blocking client (sftp_inner self) s w0 = (raw, w1) /\
        r = session_result self s raw /\ result_blocked r = false /\
        w_log (final (run_session client self s rs w)) = w_log w1 /\
        w_remote (final (run_session client self s rs w)) = w_remote w1) \/
     (exists e l, r = Err e /\ w_log (final (run_session client self s rs w)) =
                               l ++ [EvWait (sftp_async_io self) Writable (ReadyErr e)])) /\
  (forall this rs w r,
     outcome (poll_read client this rs w) = Ready r ->
     (File_read client (file_inner this) w = (r, final (poll_read client this rs w)) /\
      result_blocked r = false) \/
     (exists e l, r = Err e /\ w_log (final (poll_read client this rs w)) =
                               l ++ [EvWait (file_async_io this) Readable (ReadyErr e)])) /\
  (forall this buf rs w r,
     outcome (poll_write client this buf rs w) = Ready r ->
     (File_write client (file_inner this) buf w = (r, final (poll_write client this buf rs w)) /\
      result_blocked r = false) \/
     (exists e l, r = Err e /\ w_log (final (poll_write client this buf rs w)) =
                               l ++ [EvWait (file_async_io this) Writable (ReadyErr e)])) /\
  (forall this rs w r,
     outcome (poll_flush client this rs w) = Ready r ->
     (File_flush client (file_inner this) w = (r, final (poll_flush client this rs w)) /\
      result_blocked r = false) \/
     (exists e l, r = Err e /\ w_log (final (poll_flush client this rs w)) =
                               l ++ [EvWait (file_async_io this) Writable (ReadyErr e)])).
Proof.
  split; [| split; [| split]].
  - intros self s rs w r H. exact (run_session_ready client self s rs w r H).
  - intros this rs w r H. exact (io_loop_poll_ready_now _ _ _ rs w r H).
  - intros this buf rs w r H. exact (io_loop_poll_ready_now _ _ _ rs w r H).
  - intros this rs w r H. exact (io_loop_poll_ready_now _ _ _ rs w r H).
Qed.

(** C2 (as amended): a session method issues its blocking call once, and
    again only after the previous call reported "would block" and the task,
    suspended at the reactor's write-readiness wait (the only place it
    suspends), was woken; the log of a run is exactly such rounds.  A
    completed run ends with a call that did not block, or with a reactor
    error which is then the outcome; a pending run ends with a call that
    reported "would block". *)
Theorem session_call_retry_trace self s rs w :
  exists tr, w_log (final (run_session client self s rs w)) = w_log w ++ tr /\
    await_trace (sftp_async_io self) Writable (session_call s) tr /\
    (forall r, outcome (run_session client self s rs w) = Ready r ->
       (exists l, tr = l ++ [EvCall (session_call s) false]) \/
       (exists e l, r = Err e /\ tr = l ++ [EvWait (sftp_async_io self) Writable (ReadyErr e)])) /\
    (outcome (run_session client self s rs w) = Pending ->
       exists l, tr = l ++ [EvCall (session_call s) true]).
Proof. exact (run_session_end client self s rs w). Qed.

(** C3: every readiness wait of every session method is a write-readiness
    wait on the session's registration: the blocking call goes through
    [write_with], never [read_with]. *)
Theorem session_waits_are_write_readiness self s rs w :
  exists tr, w_log (final (run_session client self s rs w)) = w_log w ++ tr /\
             (forall a d r, In (EvWait a d r) tr -> a = sftp_async_io self /\ d = Writable).
Proof.
  destruct (run_session_log client self s rs w) as (tr & Hl & Ht).
  exists tr. split; [exact Hl |].
  intros a d r Hin. exact (await_trace_waits _ _ _ _ _ _ _ Ht Hin).
Qed.

(** C4: [poll_close] resolves to [Ok(())] on every poll, in every world,
    and changes nothing: no call on the wrapped file handle (nor any other
    call) is made and no readiness answer is consumed. *)
Theorem poll_close_noop_success this rs w :
  poll_close this rs w = (Ready (Ok tt), rs, w).
Proof. apply poll_close_eq. Qed.

(** C5: one poll of [poll_read] waits on read readiness only and makes
    exactly one call of the underlying read, the first event it logs, on
    the world it was polled in, so into the caller's buffer [w_buf w]; a
    completed read returns that call's byte count as-is (zero included, a
    partial count not topped up), with the world (buffer included) as that
    call left it. *)
Theorem poll_read_single_poll this rs w :
  (exists b tr, w_log (final (poll_read client this rs w)) =
                  w_log w ++ EvCall (CallFileRead (file_inner this)) b :: tr /\
     (forall c b', ~ In (EvCall c b') tr) /\
     (forall a d r, In (EvWait a d r) tr -> a = file_async_io this /\ d = Readable)) /\
  (forall n, outcome (poll_read client this rs w) = Ready (Ok n) ->
     File_read client (file_inner this) w = (Ok n, final (poll_read client this rs w))).
Proof.
  unfold poll_read, poll_once, read_with_poll. split.
  - destruct (io_loop_poll_log (file_async_io this) Readable _ _
                (File_read_one_call client (file_inner this)) rs w) as (tr & Hl & Ht & _).
    destruct (poll_trace_one_call _ _ _ _ Ht) as (b & tr' & -> & Hc & Hw).
    exists b, tr'. split; [exact Hl | split; assumption].
  - intros n H.
    destruct (io_loop_poll_ready_now _ _ _ rs w _ H) as [(H0 & _) | (e & l & He & _)].
    + exact H0.
    + discriminate.
Qed.

(** C6: a successful open method returns an [AsyncFile] holding the
    session's own [Arc] pointer, whose strong count went up by one; no
    other count changed. *)
Theorem open_family_shares_reactor self o rs w f :
  outcome (run_open client self o rs w) = Ready (Ok f) ->
  file_async_io f = sftp_async_io self /\
  w_arcs (final (run_open client self o rs w)) =
    <[sftp_async_io self := S (default 0%nat (w_arcs w !! sftp_async_io self))]> (w_arcs w).
Proof.
  rewrite run_open_eq. unfold async_then, outcome, final, write_with.
  destruct (io_loop_await_log (sftp_async_io self) Writable _ _
              (open_blocking_one_call client (sftp_inner self) o) rs w) as (tr & _ & _ & Ha).
  unfold final in Ha.
  destruct (io_loop_await _ _ _ rs w) as [[[[file | e] |] rs'] w']; simpl in *;
    intros H; inversion H; subst.
  split; [reflexivity | rewrite Ha; reflexivity].
Qed.

(** C7: every blocking call [setstat] issues, on every attempt, receives
    the caller's record [st] itself (a clone, equal to it). *)
Theorem setstat_same_record_each_attempt self p st rs w :
  exists tr, w_log (final (setstat client self p st rs w)) = w_log w ++ tr /\
             (forall c b, In (EvCall c b) tr -> c = CallSetstat p st).
Proof.
  destruct (run_session_log client self (ScSetstat p st) rs w) as (tr & Hl & Ht).
  exists tr. split; [exact Hl |].
  intros c b Hin. exact (await_trace_calls _ _ _ _ _ _ Ht Hin).
Qed.

(** C8: a successful [readdir] returns the whole list one blocking
    [readdir] call returned, with the world as that call left it. *)
Theorem readdir_materialized_single_call self p rs w (l : list (PathBuf * FileStat)) :
  outcome (readdir client self p rs w) = Ready (Ok l) ->
  exists w0, Sftp_readdir client (sftp_inner self) p w0 = (Ok l, final (readdir client self p rs w)).
Proof.
  intros H. unfold readdir, write_with in *.
  destruct (io_loop_await_ready _ _ _ rs w _ H) as [(w0 & H0 & _) | (e & l' & He & _)].
  - exists w0. exact (map_err_into_ok _ _ _ _ H0).
  - discriminate.
Qed.

(** C9: when an open method fails, its outcome, remaining schedule and
    final world are those of the bare [write_with] loop: no [AsyncFile] is
    built and no [Arc] count changes. *)
Theorem open_family_failure_no_clone self o rs w e :
  outcome (run_open client self o rs w) = Ready (Err e) ->
  let loop := write_with (sftp_async_io self)
                (map_err_into (open_blocking client (sftp_inner self) o)) rs w in
  outcome loop = Ready (Err e) /\ final loop = final (run_open client self o rs w) /\
  w_arcs (final (run_open client self o rs w)) = w_arcs w.
Proof.
  intros H. destruct (run_open_err client self o rs w e H) as (Ho & _ & Hf).
  destruct (io_loop_await_log (sftp_async_io self) Writable _ _
              (open_blocking_one_call client (sftp_inner self) o) rs w) as (tr & _ & _ & Ha).
  simpl. split; [exact Ho | split; [exact Hf |]].
  rewrite <- Hf. exact Ha.
Qed.

(** C10 (as amended): [poll_close] does not wait for write readiness: with
    any answer of the reactor pending, and when the reactor never answers,
    its first poll resolves to [Ok(())] and consumes no answer. *)
Theorem poll_close_ignores_readiness this r rs w :
  poll_close this (r :: rs) w = (Ready (Ok tt), r :: rs, w) /\
  poll_close this [] w = (Ready (Ok tt), [], w).
Proof. split; apply poll_close_eq. Qed.

End Claims.

(** * Runs on explicit inputs *)

(** C1 counterexample: [stat] whose blocking call reports "would block" and
    whose write-readiness wait then fails: the failure outcome is the
    reactor's error, which is not the conversion of any error of the
    blocking call. *)
Lemma stat_reactor_error_cex :
  outcome (stat ex_client ex_self "a"%string [ReadyErr reactor_error] ex_world) =
    Ready (Err reactor_error) /\
  (forall e0, reactor_error <> io_error_from e0).
Proof. split; [reflexivity | intros e0 H; discriminate H]. Qed.

Lemma session_handle_failure_outcome_witness :
  outcome (run_session ex_client ex_self (ScStat "a"%string) [ReadyErr reactor_error] ex_world) =
    Ready (Err reactor_error) /\
  ((exists w0 raw w1, session_blocking ex_client (sftp_inner ex_self) (ScStat "a"%string) w0 =
                        (raw, w1) /\
      Err reactor_error = session_result ex_self (ScStat "a"%string) raw /\
      result_blocked (Err reactor_error : Result FileStat IoError) = false /\
      w_log (final (run_session ex_client ex_self (ScStat "a"%string)
                      [ReadyErr reactor_error] ex_world)) = w_log w1 /\
      w_remote (final (run_session ex_client ex_self (ScStat "a"%string)
                         [ReadyErr reactor_error] ex_world)) = w_remote w1) \/
   (exists e l, (Err reactor_error : Result FileStat IoError) = Err e /\
      w_log (final (run_session ex_client ex_self (ScStat "a"%string)
                      [ReadyErr reactor_error] ex_world)) =
        l ++ [EvWait (sftp_async_io ex_self) Writable (ReadyErr e)])).
Proof.
  split; [reflexivity |].
  apply (proj1 (session_handle_failure_outcome ex_client) ex_self (ScStat "a"%string)
           [ReadyErr reactor_error] ex_world (Err reactor_error)).
  reflexivity.
Defined.

(** C2 counterexample: one invocation of [stat] performs two blocking
    calls: the first reports "would block", the task suspends at the
    write-readiness wait and, once woken, the second call completes. *)
Lemma stat_two_blocking_calls_cex :
  outcome (stat ex_client ex_self "a"%string [NotReady] ex_world) = Ready (Ok stat_a) /\
  w_log (final (stat ex_client ex_self "a"%string [NotReady] ex_world)) =
    [EvCall (CallStat "a"%string) true; EvWait 1%positive Writable NotReady;
     EvCall (CallStat "a"%string) false].
Proof. split; reflexivity. Qed.

Lemma session_call_retry_trace_witness :
  outcome (run_session ex_client ex_self (ScStat "a"%string) [NotReady] ex_world) =
    Ready (Ok stat_a) /\
  exists tr, w_log (final (run_session ex_client ex_self (ScStat "a"%string) [NotReady] ex_world)) =
               w_log ex_world ++ tr /\
    await_trace (sftp_async_io ex_self) Writable (session_call (ScStat "a"%string)) tr /\
    (forall r, outcome (run_session ex_client ex_self (ScStat "a"%string) [NotReady] ex_world) =
                 Ready r ->
       (exists l, tr = l ++ [EvCall (session_call (ScStat "a"%string)) false]) \/
       (exists e l, r = Err e /\
          tr = l ++ [EvWait (sftp_async_io ex_self) Writable (ReadyErr e)])) /\
    (outcome (run_session ex_client ex_self (ScStat "a"%string) [NotReady] ex_world) = Pending ->
       exists l, tr = l ++ [EvCall (session_call (ScStat "a"%string)) true]).
Proof.
  split; [reflexivity |].
  exact (session_call_retry_trace ex_client ex_self (ScStat "a"%string) [NotReady] ex_world).
Defined.

Lemma session_waits_are_write_readiness_witness :
  exists tr, w_log (final (run_session ex_client ex_self (ScStat "a"%string) [NotReady] ex_world)) =
               w_log ex_world ++ tr /\
             (forall a d r, In (EvWait a d r) tr -> a = sftp_async_io ex_self /\ d = Writable).
Proof.
  apply (session_waits_are_write_readiness ex_client ex_self (ScStat "a"%string) [NotReady] ex_world).
Defined.

(** A read buffer of eight bytes, on a remote whose next read returns
    three bytes: a partial read. *)
Definition ex_world_readable : @World nat :=
  mk_world 1%nat {[1%positive := 1%nat]} (repeat Byte.x00 8) [].

Lemma poll_read_single_poll_witness :
  outcome (poll_read ex_client ex_file [] ex_world_readable) = Ready (Ok 3%nat) /\
  File_read ex_client (file_inner ex_file) ex_world_readable =
    (Ok 3%nat, final (poll_read ex_client ex_file [] ex_world_readable)).
Proof.
  split; [reflexivity |].
  apply (proj2 (poll_read_single_poll ex_client ex_file [] ex_world_readable)).
  reflexivity.
Defined.

Lemma open_family_shares_reactor_witness :
  outcome (run_open ex_client ex_self (OcOpen "a"%string) [] ex_world) =
    Ready (Ok (AsyncFile_from_parts 7%positive 1%positive)) /\
  file_async_io (AsyncFile_from_parts 7%positive 1%positive) = sftp_async_io ex_self /\
  w_arcs (final (run_open ex_client ex_self (OcOpen "a"%string) [] ex_world)) =
    <[sftp_async_io ex_self := S (default 0%nat (w_arcs ex_world !! sftp_async_io ex_self))]>
      (w_arcs ex_world).
Proof.
  split; [reflexivity |].
  apply (open_family_shares_reactor ex_client ex_self (OcOpen "a"%string) [] ex_world).
  reflexivity.
Defined.

Lemma setstat_same_record_each_attempt_witness :
  exists tr, w_log (final (setstat ex_client ex_self "a"%string stat_a [] ex_world)) =
               w_log ex_world ++ tr /\
             (forall c b, In (EvCall c b) tr -> c = CallSetstat "a"%string stat_a).
Proof.
  apply (setstat_same_record_each_attempt ex_client ex_self "a"%string stat_a [] ex_world).
Defined.

Lemma readdir_materialized_single_call_witness :
  outcome (readdir ex_client ex_self "d"%string [] ex_world) =
    Ready (Ok [("a"%string, stat_a); ("b"%string, empty_stat)]) /\
  exists w0, Sftp_readdir ex_client (sftp_inner ex_self) "d"%string w0 =
               (Ok [("a"%string, stat_a); ("b"%string, empty_stat)],
                final (readdir ex_client ex_self "d"%string [] ex_world)).
Proof.
  split; [reflexivity |].
  apply (readdir_materialized_single_call ex_client ex_self "d"%string [] ex_world).
  reflexivity.
Defined.

Lemma open_family_failure_no_clone_witness :
  outcome (run_open ex_client ex_self (OcOpen "missing"%string) [] ex_world) =
    Ready (Err (io_error_from no_such_file)) /\
  let loop := write_with (sftp_async_io ex_self)
                (map_err_into (open_blocking ex_client (sftp_inner ex_self) (OcOpen "missing"%string)))
                [] ex_world in
  outcome loop = Ready (Err (io_error_from no_such_file)) /\
  final loop = final (run_open ex_client ex_self (OcOpen "missing"%string) [] ex_world) /\
  w_arcs (final (run_open ex_client ex_self (OcOpen "missing"%string) [] ex_world)) = w_arcs ex_world.
Proof.
  split; [reflexivity |].
  apply (open_family_failure_no_clone ex_client ex_self (OcOpen "missing"%string) [] ex_world).
  reflexivity.
Defined.

(** C10 counterexample: with the reactor reporting the transport not ready
    for writing, or never answering, [poll_close] still resolves on its
    first poll. *)
Lemma poll_close_not_pending_cex :
  outcome (poll_close ex_file [NotReady] ex_world) = Ready (Ok tt) /\
  outcome (poll_close ex_file [] ex_world) = Ready (Ok tt).
Proof. split; reflexivity. Qed.

(** * Further properties of the adapters *)

Section Loop_more.

Context {R : Type} {A : Type} (a : Arc) (d : Direction) (op : @Op R A).
Implicit Types (w : @World R) (rs : list Readiness).

(** An awaited loop stays pending only when the reactor has no answer left
    and the last run of [op] reported "would block". *)
Lemma io_loop_await_pending rs w :
  outcome (io_loop_await a d op rs w) = Pending ->
  snd (fst (io_loop_await a d op rs w)) = [] /\
  exists w0 e, op w0 = (Err e, final (io_loop_await a d op rs w)) /\ io_would_block e = true.
Proof.
  revert w. induction rs as [| r0 rs IH]; intros w; unfold outcome, final; simpl;
    destruct (op w) as [[v | e] w1] eqn:E; simpl; intros H; try discriminate.
  - destruct (io_would_block e) eqn:Wb; simpl in *; [| discriminate].
    split; [reflexivity | exists w, e; split; assumption].
  - destruct (io_would_block e) eqn:Wb; simpl in H; [| discriminate].
    destruct r0 as [| e']; simpl in H |- *; try discriminate; apply IH; exact H.
Qed.

(** A single poll returns [Pending] only right after a run of [op] that
    reported "would block": either the reactor had no answer, or it
    answered [NotReady], which is then the last event. *)
Lemma io_loop_poll_pending rs w :
  outcome (io_loop_poll a d op rs w) = Pending ->
  exists w0 e w1, op w0 = (Err e, w1) /\ io_would_block e = true /\
    (final (io_loop_poll a d op rs w) = w1 \/
     final (io_loop_poll a d op rs w) = log_event (EvWait a d NotReady) w1).
Proof.
  destruct rs as [| r0 rs]; unfold outcome, final, io_loop_poll; simpl;
    destruct (op w) as [[v | e] w1] eqn:E; simpl; intros H; try discriminate.
  - destruct (io_would_block e) eqn:Wb; simpl in *; [| discriminate].
    exists w, e, w1. split; [assumption | split; [assumption | left; reflexivity]].
  - destruct (io_would_block e) eqn:Wb; simpl in H; [| discriminate].
    destruct r0 as [| e']; simpl in H |- *; try discriminate.
    + exists w, e, w1. split; [assumption | split; [assumption | right; reflexivity]].
Qed.

(** When [op] never reports "would block", the loop runs it once and
    touches no readiness answer. *)
Lemma io_loop_await_never_blocks rs w :
  (forall w0, result_blocked (fst (op w0)) = false) ->
  io_loop_await a d op rs w = (Ready (fst (op w)), rs, snd (op w)).
Proof.
  intros Hnb. specialize (Hnb w). destruct rs; simpl;
    destruct (op w) as [[v | e] w1]; simpl in *; try reflexivity; rewrite Hnb; reflexivity.
Qed.

End Loop_more.

Section Adapters_more.

Context {R : Type} (client : @Ssh2Client R).
Implicit Types (w : @World R) (rs : list Readiness) (self : AsyncSftp) (this : AsyncFile).

(** A successful open: the [AsyncFile] wraps the [File] of one blocking
    open call, holds the session's pointer, and the world is the one that
    call left with the pointer's count raised by one. *)
Lemma run_open_ok self o rs w f :
  outcome (run_open client self o rs w) = Ready (Ok f) ->
  exists w0 w1, open_blocking client (sftp_inner self) o w0 = (Ok (file_inner f), w1) /\
    file_async_io f = sftp_async_io self /\
    w_arcs w1 = w_arcs w /\
    final (run_open client self o rs w) = snd (arc_clone (sftp_async_io self) w1) /\
    snd (fst (run_open client self o rs w)) =
      snd (fst (write_with (sftp_async_io self)
                  (map_err_into (open_blocking client (sftp_inner self) o)) rs w)).
Proof.
  rewrite run_open_eq. unfold async_then, outcome, final, write_with.
  destruct (io_loop_await_log (sftp_async_io self) Writable _ _
              (open_blocking_one_call client (sftp_inner self) o) rs w) as (tr & _ & _ & Ha).
  pose proof (io_loop_await_ready (sftp_async_io self) Writable
                (map_err_into (open_blocking client (sftp_inner self) o)) rs w) as Hr.
  unfold final, outcome in Ha, Hr.
  destruct (io_loop_await _ _ _ rs w) as [[[[file | e] |] rs'] w']; simpl in *;
    intros H; inversion H; subst.
  destruct (Hr _ eq_refl) as [(w0 & H0 & _) | (e & l & He & _)]; [| discriminate].
  exists w0, w'. repeat split; try assumption; try reflexivity.
  exact (map_err_into_ok _ _ _ _ H0).
Qed.

End Adapters_more.

Lemma poll_trace_waits a d c tr a' d' r :
  poll_trace a d c tr -> In (EvWait a' d' r) tr -> a' = a /\ d' = d.
Proof.
  induction 1; simpl; intros Hin; intuition congruence.
Qed.

Section Adapters_more2.

Context {R : Type} (client : @Ssh2Client R).
Implicit Types (w : @World R) (rs : list Readiness) (self : AsyncSftp) (this : AsyncFile).

Lemma write_with_ok {B : Type} (a : Arc) (f : World -> Result B Ssh2Error * World) rs w v :
  outcome (write_with a (map_err_into f) rs w) = Ready (Ok v) ->
  exists w0, f w0 = (Ok v, final (write_with a (map_err_into f) rs w)).
Proof.
  intros H. destruct (io_loop_await_ready a Writable (map_err_into f) rs w _ H)
    as [(w0 & H0 & _) | (e & l & He & _)]; [| discriminate].
  exists w0. exact (map_err_into_ok _ _ _ _ H0).
Qed.

Lemma write_with_pending {B : Type} (a : Arc) (f : World -> Result B Ssh2Error * World) rs w :
  outcome (write_with a (map_err_into f) rs w) = Pending ->
  snd (fst (write_with a (map_err_into f) rs w)) = [] /\
  exists w0 e0, f w0 = (Err e0, final (write_with a (map_err_into f) rs w)) /\
                ssh2_would_block e0 = true.
Proof.
  intros H. destruct (io_loop_await_pending a Writable (map_err_into f) rs w H)
    as (Hrs & w0 & e & H0 & Hb).
  split; [exact Hrs |].
  destruct (map_err_into_err f w0 e _ H0) as (e0 & Hf & ->).
  exists w0, e0. rewrite io_error_from_would_block in Hb. split; assumption.
Qed.

Lemma write_with_never_blocks {B : Type} (a : Arc) (c : Call)
    (f : R -> Result B Ssh2Error * R) rs w :
  (forall w0 e0 w1, blocking c ssh2_would_block f w0 = (Err e0, w1) -> ssh2_would_block e0 = false) ->
  let loop := write_with a (map_err_into (blocking c ssh2_would_block f)) rs w in
  snd (fst loop) = rs /\ w_log (final loop) = w_log w ++ [EvCall c false] /\
  outcome loop <> Pending.
Proof.
  intros Hnb. simpl. unfold write_with.
  rewrite io_loop_await_never_blocks.
  2: { intros w0. unfold map_err_into.
       destruct (blocking c ssh2_would_block f w0) as [[v | e0] w1] eqn:E; simpl; [reflexivity |].
       rewrite io_error_from_would_block. exact (Hnb _ _ _ E). }
  unfold final, outcome. simpl.
  destruct (map_err_into (blocking c ssh2_would_block f) w) as [r w1] eqn:E. simpl.
  destruct (map_err_into_one_call c f w r w1 E) as [Hl _].
  assert (Hb : result_blocked r = false).
  { unfold map_err_into in E. destruct (blocking c ssh2_would_block f w) as [[v | e0] w2] eqn:E2;
      simpl in E; inversion E; subst; simpl; [reflexivity |].
    rewrite io_error_from_would_block. exact (Hnb _ _ _ E2). }
  rewrite Hb in Hl. repeat split; [exact Hl | discriminate].
Qed.

End Adapters_more2.

Section Extras.

Context {R : Type} (client : @Ssh2Client R).
Implicit Types (w : @World R) (rs : list Readiness) (self : AsyncSftp) (this : AsyncFile).

(** [poll_write]: one poll waits on write readiness only and calls the
    underlying write once (its log is a [poll_trace]); a completed write
    returns that one call's count as-is (a partial count is not topped up). *)
Theorem poll_write_single_poll this buf rs w :
  (exists tr, w_log (final (poll_write client this buf rs w)) = w_log w ++ tr /\
              poll_trace (file_async_io this) Writable (CallFileWrite (file_inner this) buf) tr) /\
  (forall n, outcome (poll_write client this buf rs w) = Ready (Ok n) ->
     exists w0, File_write client (file_inner this) buf w0 =
                  (Ok n, final (poll_write client this buf rs w))).
Proof.
  unfold poll_write, poll_once, write_with_poll. split.
  - destruct (io_loop_poll_log (file_async_io this) Writable _ _
                (blocking_io_one_call (CallFileWrite (file_inner this) buf)
                   (file_write client (file_inner this) buf)) rs w) as (tr & Hl & Ht & _).
    exists tr. split; assumption.
  - intros n H.
    destruct (io_loop_poll_ready _ _ _ rs w _ H) as [(w0 & H0 & _) | (e & l & He & _)].
    + exists w0. exact H0.
    + discriminate.
Qed.


(** Only the open methods touch [Arc] counts: every other session method
    leaves them as they were, whatever its outcome. *)
Theorem non_open_methods_keep_arcs self s rs w :
  is_open_call s = false ->
  w_arcs (final (run_session client self s rs w)) = w_arcs w.
Proof.
  intros Hs. destruct s; [discriminate Hs | ..]; cbn [run_session];
    unfold readdir, mkdir, rmdir, stat, lstat, setstat, symlink, readlink,
      realpath, rename, unlink, write_with; try rewrite FileStat_clone_id;
    match goal with
    | |- context [io_loop_await ?a ?d ?op ?rs0 ?w0] =>
        destruct (io_loop_await_log a d op _ (map_err_into_one_call _ _) rs0 w0)
          as (tr & _ & _ & Ha)
    end; exact Ha.
Qed.

(** A session method stays pending only when the reactor has no readiness
    answer left and the last blocking call reported EAGAIN ("would block"). *)
Theorem session_pending_only_when_reactor_silent self s rs w :
  outcome (run_session client self s rs w) = Pending ->
  snd (fst (run_session client self s rs w)) = [] /\
  exists w0 e0, session_blocking client (sftp_inner self) s w0 =
                  (Err e0, final (run_session client self s rs w)) /\
                ssh2_would_block e0 = true.
Proof.
  destruct s; cbn [run_session session_blocking].
  1: { rewrite run_open_eq. unfold async_then, outcome, final.
       pose proof (write_with_pending (sftp_async_io self)
                     (open_blocking client (sftp_inner self) o) rs w) as G.
       unfold outcome, final in G.
       destruct (write_with _ _ rs w) as [[[v |] rs'] w'].
       - destruct (and_then_from_parts self v w'); simpl; discriminate.
       - simpl in *. intros _. exact (G eq_refl). }
  all: unfold readdir, mkdir, rmdir, stat, lstat, setstat, symlink, readlink,
      realpath, rename, unlink; try rewrite FileStat_clone_id; apply write_with_pending.
Qed.

(** When the blocking call of a session method never reports "would block",
    the method completes after exactly one call and uses no readiness
    answer of the reactor. *)
Theorem session_never_blocking_single_call self s rs w :
  (forall w0 e0 w1, session_blocking client (sftp_inner self) s w0 = (Err e0, w1) ->
     ssh2_would_block e0 = false) ->
  snd (fst (run_session client self s rs w)) = rs /\
  w_log (final (run_session client self s rs w)) = w_log w ++ [EvCall (session_call s) false] /\
  outcome (run_session client self s rs w) <> Pending.
Proof.
  intros Hnb. destruct s; cbn [run_session session_blocking session_call] in *.
  1: { rewrite run_open_eq. unfold async_then, outcome, final.
       assert (G : let loop := write_with (sftp_async_io self)
                     (map_err_into (open_blocking client (sftp_inner self) o)) rs w in
                   snd (fst loop) = rs /\ w_log (final loop) = w_log w ++ [EvCall (open_call o) false] /\
                   outcome loop <> Pending).
       { destruct o; apply write_with_never_blocks; exact Hnb. }
       simpl in G. unfold outcome, final in G.
       destruct (write_with _ _ rs w) as [[[v |] rs'] w']; simpl in *.
       - destruct v as [file | e]; simpl; destruct G as (G1 & G2 & _);
           repeat split; try assumption; discriminate.
       - destruct G as (_ & _ & G3). exfalso. apply G3. reflexivity. }
  all: unfold readdir, mkdir, rmdir, stat, lstat, setstat, symlink, readlink,
      realpath, rename, unlink; try rewrite FileStat_clone_id;
    apply write_with_never_blocks; exact Hnb.
Qed.

(** [poll_read], [poll_write] and [poll_flush] return [Pending] only right
    after a call that reported "would block", when the reactor had no
    answer or answered not ready (then the last event). *)
Theorem handle_pending_after_would_block this buf rs w :
  (outcome (poll_read client this rs w) = Pending ->
   exists w0 e w1, File_read client (file_inner this) w0 = (Err e, w1) /\ io_would_block e = true /\
     (final (poll_read client this rs w) = w1 \/
      final (poll_read client this rs w) = log_event (EvWait (file_async_io this) Readable NotReady) w1)) /\
  (outcome (poll_write client this buf rs w) = Pending ->
   exists w0 e w1, File_write client (file_inner this) buf w0 = (Err e, w1) /\ io_would_block e = true /\
     (final (poll_write client this buf rs w) = w1 \/
      final (poll_write client this buf rs w) = log_event (EvWait (file_async_io this) Writable NotReady) w1)) /\
  (outcome (poll_flush client this rs w) = Pending ->
   exists w0 e w1, File_flush client (file_inner this) w0 = (Err e, w1) /\ io_would_block e = true /\
     (final (poll_flush client this rs w) = w1 \/
      final (poll_flush client this rs w) = log_event (EvWait (file_async_io this) Writable NotReady) w1)).
Proof.
  unfold poll_read, poll_write, poll_flush, poll_once, read_with_poll, write_with_poll.
  split; [| split]; apply io_loop_poll_pending.
Qed.

(** Opening composes with reading: the handle a successful open returns
    waits, when polled for reading, only for read readiness on the session's
    own registration. *)
Theorem open_then_read_same_registration self o rs w f rs2 w2 :
  outcome (run_open client self o rs w) = Ready (Ok f) ->
  exists tr, w_log (final (poll_read client f rs2 w2)) = w_log w2 ++ tr /\
    (forall a d r, In (EvWait a d r) tr -> a = sftp_async_io self /\ d = Readable).
Proof.
  intros H. destruct (run_open_ok client self o rs w f H) as (w0 & w1 & _ & Hf & _).
  assert (Hop : one_call (CallFileRead (file_inner f)) (File_read client (file_inner f))).
  { intros w3 r w' E. unfold File_read, blocking in E.
    destruct (file_read client (file_inner f) (w_buf w3) (w_remote w3))
      as [[[n buf'] | e] rem]; simpl in E; inversion E; subst; simpl; split; reflexivity. }
  unfold poll_read, poll_once, read_with_poll.
  destruct (io_loop_poll_log (file_async_io f) Readable _ _ Hop rs2 w2) as (tr & Hl & Ht & _).
  exists tr. split; [exact Hl |].
  intros a d r Hin. rewrite <- Hf. exact (poll_trace_waits _ _ _ _ _ _ _ Ht Hin).
Qed.

(** Two successful opens in a row on one session return handles that both
    hold the session's pointer, whose strong count went up by two. *)
Theorem two_opens_share_pointer self o1 o2 rs w f1 f2 :
  let x1 := run_open client self o1 rs w in
  outcome x1 = Ready (Ok f1) ->
  outcome (run_open client self o2 (snd (fst x1)) (final x1)) = Ready (Ok f2) ->
  file_async_io f1 = sftp_async_io self /\ file_async_io f2 = sftp_async_io self /\
  w_arcs (final (run_open client self o2 (snd (fst x1)) (final x1))) !! sftp_async_io self =
    Some (S (S (default 0%nat (w_arcs w !! sftp_async_io self)))).
Proof.
  simpl. intros H1 H2.
  destruct (run_open_ok client self o1 rs w f1 H1) as (w0 & w1 & _ & Hf1 & Ha1 & Hx1 & _).
  destruct (run_open_ok client self o2 _ _ f2 H2) as (w0' & w1' & _ & Hf2 & Ha2 & Hx2 & _).
  split; [exact Hf1 | split; [exact Hf2 |]].
  rewrite Hx2. simpl. rewrite lookup_insert_eq, Ha2, Hx1. simpl.
  rewrite lookup_insert_eq, Ha1. reflexivity.
Qed.

(** [stat], [lstat], [readlink] and [realpath] return, on success, the value
    their one completing blocking call returned, with the world as that call
    left it. *)
Theorem value_methods_return_call_result self p rs w (st : FileStat) (pb : PathBuf) :
  (outcome (stat client self p rs w) = Ready (Ok st) ->
   exists w0, Sftp_stat client (sftp_inner self) p w0 = (Ok st, final (stat client self p rs w))) /\
  (outcome (lstat client self p rs w) = Ready (Ok st) ->
   exists w0, Sftp_lstat client (sftp_inner self) p w0 = (Ok st, final (lstat client self p rs w))) /\
  (outcome (readlink client self p rs w) = Ready (Ok pb) ->
   exists w0, Sftp_readlink client (sftp_inner self) p w0 = (Ok pb, final (readlink client self p rs w))) /\
  (outcome (realpath client self p rs w) = Ready (Ok pb) ->
   exists w0, Sftp_realpath client (sftp_inner self) p w0 = (Ok pb, final (realpath client self p rs w))).
Proof.
  unfold stat, lstat, readlink, realpath.
  split; [| split; [| split]]; apply write_with_ok.
Qed.

(** A successful open returns a handle wrapping the [File] its one
    completing blocking open call returned; after that call only the
    [Arc] count changes (no further call, nothing logged). *)
Theorem open_wraps_blocking_file self o rs w f :
  outcome (run_open client self o rs w) = Ready (Ok f) ->
  exists w0 w1, open_blocking client (sftp_inner self) o w0 = (Ok (file_inner f), w1) /\
    w_log (final (run_open client self o rs w)) = w_log w1 /\
    w_remote (final (run_open client self o rs w)) = w_remote w1 /\
    w_buf (final (run_open client self o rs w)) = w_buf w1.
Proof.
  intros H. destruct (run_open_ok client self o rs w f H) as (w0 & w1 & H0 & _ & _ & Hx & _).
  exists w0, w1. rewrite Hx. repeat split; [exact H0].
Qed.

End Extras.

Lemma poll_write_single_poll_witness :
  outcome (poll_write ex_client ex_file [Byte.x61] [] ex_world) = Ready (Ok 1%nat) /\
  exists w0, File_write ex_client (file_inner ex_file) [Byte.x61] w0 =
               (Ok 1%nat, final (poll_write ex_client ex_file [Byte.x61] [] ex_world)).
Proof.
  split; [reflexivity |].
  apply (proj2 (poll_write_single_poll ex_client ex_file [Byte.x61] [] ex_world)).
  reflexivity.
Defined.


Lemma non_open_methods_keep_arcs_witness :
  is_open_call (ScStat "a"%string) = false /\
  w_arcs (final (run_session ex_client ex_self (ScStat "a"%string) [NotReady] ex_world)) =
    w_arcs ex_world.
Proof.
  split; [reflexivity |].
  apply (non_open_methods_keep_arcs ex_client ex_self (ScStat "a"%string) [NotReady] ex_world).
  reflexivity.
Defined.

Lemma session_pending_only_when_reactor_silent_witness :
  outcome (run_session ex_client ex_self (ScStat "a"%string) [] ex_world) = Pending /\
  snd (fst (run_session ex_client ex_self (ScStat "a"%string) [] ex_world)) = [] /\
  exists w0 e0, session_blocking ex_client (sftp_inner ex_self) (ScStat "a"%string) w0 =
                  (Err e0, final (run_session ex_client ex_self (ScStat "a"%string) [] ex_world)) /\
                ssh2_would_block e0 = true.
Proof.
  split; [reflexivity |].
  apply (session_pending_only_when_reactor_silent ex_client ex_self (ScStat "a"%string) [] ex_world).
  reflexivity.
Defined.

Lemma session_never_blocking_single_call_witness :
  snd (fst (run_session ex_client ex_self (ScReaddir "d"%string) [NotReady] ex_world)) = [NotReady] /\
  w_log (final (run_session ex_client ex_self (ScReaddir "d"%string) [NotReady] ex_world)) =
    w_log ex_world ++ [EvCall (session_call (ScReaddir "d"%string)) false] /\
  outcome (run_session ex_client ex_self (ScReaddir "d"%string) [NotReady] ex_world) <> Pending.
Proof.
  apply (session_never_blocking_single_call ex_client ex_self (ScReaddir "d"%string)
           [NotReady] ex_world).
  intros w0 e0 w1 H. cbv in H. discriminate H.
Defined.

Lemma handle_pending_after_would_block_witness :
  outcome (poll_read ex_client ex_file [] ex_world) = Pending /\
  exists w0 e w1, File_read ex_client (file_inner ex_file) w0 = (Err e, w1) /\
    io_would_block e = true /\
    (final (poll_read ex_client ex_file [] ex_world) = w1 \/
     final (poll_read ex_client ex_file [] ex_world) =
       log_event (EvWait (file_async_io ex_file) Readable NotReady) w1).
Proof.
  split; [reflexivity |].
  apply (proj1 (handle_pending_after_would_block ex_client ex_file [] [] ex_world)).
  reflexivity.
Defined.

Lemma open_then_read_same_registration_witness :
  outcome (run_open ex_client ex_self (OcOpen "a"%string) [] ex_world) =
    Ready (Ok ex_file) /\
  exists tr, w_log (final (poll_read ex_client ex_file [NotReady] ex_world)) = w_log ex_world ++ tr /\
    (forall a d r, In (EvWait a d r) tr -> a = sftp_async_io ex_self /\ d = Readable).
Proof.
  split; [reflexivity |].
  apply (open_then_read_same_registration ex_client ex_self (OcOpen "a"%string) [] ex_world
           ex_file [NotReady] ex_world).
  reflexivity.
Defined.

Lemma two_opens_share_pointer_witness :
  outcome (run_open ex_client ex_self (OcOpen "a"%string) [] ex_world) = Ready (Ok ex_file) /\
  outcome (run_open ex_client ex_self (OcOpendir "b"%string)
             (snd (fst (run_open ex_client ex_self (OcOpen "a"%string) [] ex_world)))
             (final (run_open ex_client ex_self (OcOpen "a"%string) [] ex_world))) =
    Ready (Ok (AsyncFile_from_parts 8%positive 1%positive)) /\
  file_async_io ex_file = sftp_async_io ex_self /\
  file_async_io (AsyncFile_from_parts 8%positive 1%positive) = sftp_async_io ex_self /\
  w_arcs (final (run_open ex_client ex_self (OcOpendir "b"%string)
             (snd (fst (run_open ex_client ex_self (OcOpen "a"%string) [] ex_world)))
             (final (run_open ex_client ex_self (OcOpen "a"%string) [] ex_world))))
    !! sftp_async_io ex_self =
    Some (S (S (default 0%nat (w_arcs ex_world !! sftp_async_io ex_self)))).
Proof.
  split; [reflexivity | split; [reflexivity |]].
  apply (two_opens_share_pointer ex_client ex_self (OcOpen "a"%string) (OcOpendir "b"%string)
           [] ex_world ex_file (AsyncFile_from_parts 8%positive 1%positive));
    reflexivity.
Defined.

Lemma value_methods_return_call_result_witness :
  outcome (stat ex_client ex_self "a"%string [] (mk_world 1%nat {[1%positive := 1%nat]} [] []))
    = Ready (Ok stat_a) /\
  outcome (readlink ex_client ex_self "a"%string [] (mk_world 1%nat {[1%positive := 1%nat]} [] []))
    = Ready (Ok "a"%string) /\
  (exists w0, Sftp_stat ex_client (sftp_inner ex_self) "a"%string w0 =
     (Ok stat_a, final (stat ex_client ex_self "a"%string [] (mk_world 1%nat {[1%positive := 1%nat]} [] [])))) /\
  (exists w0, Sftp_readlink ex_client (sftp_inner ex_self) "a"%string w0 =
     (Ok "a"%string, final (readlink ex_client ex_self "a"%string [] (mk_world 1%nat {[1%positive := 1%nat]} [] [])))).
Proof.
  destruct (value_methods_return_call_result ex_client ex_self "a"%string []
              (mk_world 1%nat {[1%positive := 1%nat]} [] []) stat_a "a"%string)
    as (Hs & _ & Hr & _).
  split; [reflexivity | split; [reflexivity | split]].
  - apply Hs. reflexivity.
  - apply Hr. reflexivity.
Defined.

Lemma open_wraps_blocking_file_witness :
  outcome (run_open ex_client ex_self (OcOpen "a"%string) [] ex_world) = Ready (Ok ex_file) /\
  exists w0 w1, open_blocking ex_client (sftp_inner ex_self) (OcOpen "a"%string) w0 =
                  (Ok (file_inner ex_file), w1) /\
    w_log (final (run_open ex_client ex_self (OcOpen "a"%string) [] ex_world)) = w_log w1 /\
    w_remote (final (run_open ex_client ex_self (OcOpen "a"%string) [] ex_world)) = w_remote w1 /\
    w_buf (final (run_open ex_client ex_self (OcOpen "a"%string) [] ex_world)) = w_buf w1.
Proof.
  split; [reflexivity |].
  apply (open_wraps_blocking_file ex_client ex_self (OcOpen "a"%string) [] ex_world ex_file).
  reflexivity.
Defined.
